(** * The component installer (scripts/add-component.mjs)

    A shallow embedding of the repository's one executable script: the
    command-line wrapper that checks [process.argv[2]], spawns
    [pnpm dlx shadcn@canary add <component>] in the project root and
    forwards the child's exit status.

    The script is event driven.  Its top-level code runs once
    ([main]); afterwards Node delivers the child's ['error'] and ['exit']
    events to the two registered handlers ([on_error], [on_exit]).  The
    observable behaviour is the sequence of effects (console lines, the
    spawn request, [process.exit] calls) together with the state the
    process ends in. *)

From Stdlib Require Import List String Ascii ZArith Bool Lia.
From Stdlib Require Import DecimalString DecimalPos.
Import ListNotations.
Local Open Scope string_scope.

(** ** JavaScript values the script touches *)

Module Js.

(** [`${code}`] for the value handed to the ['exit'] listener: an integer
    exit status prints in decimal, [null] prints as the word null. *)
Definition string_of_Z (n : Z) : string :=
  NilZero.string_of_int (Z.to_int n).

Definition template_of_code (code : option Z) : string :=
  match code with
  | Some n => string_of_Z n
  | None => "null"
  end.

(** [!s] for a value that is a string or [undefined]: the empty string
    and [undefined] are the two falsy ones. *)
Definition falsy (v : option string) : bool :=
  match v with
  | None => true
  | Some s => String.eqb s ""
  end.

(** [console.error(a, b)] with a first argument free of format
    specifiers: the arguments are joined by one space. *)
Definition format2 (a b : string) : string := a ++ " " ++ b.

(** [s.includes(t)] as a proposition. *)
Definition contains (t s : string) : Prop :=
  exists pre post, s = pre ++ t ++ post.

End Js.

(** ** node:path on absolute POSIX paths

    A path is the list of its segments below the root; [[]] is the root
    itself. *)

Module Path.

Definition path := list string.

Definition dot_segment (s : string) : bool :=
  String.eqb s "" || String.eqb s "." || String.eqb s "..".

(** What [fileURLToPath] returns: no empty, [.] or [..] segment. *)
Definition normalized (p : path) : Prop :=
  Forall (fun s => dot_segment s = false) p.

Definition dirname (p : path) : path := removelast p.

(** [normalize]: the segments are scanned left to right, [acc] holds the
    kept ones in reverse; [..] drops the last kept segment and is itself
    dropped at the root. *)
Fixpoint normalize_from (acc : list string) (segs : list string) : path :=
  match segs with
  | [] => rev acc
  | s :: rest =>
      if String.eqb s "" || String.eqb s "." then normalize_from acc rest
      else if String.eqb s ".." then normalize_from (tl acc) rest
      else normalize_from (s :: acc) rest
  end.

Definition normalize (segs : list string) : path := normalize_from [] segs.

(** [path.join(p, ...rel)] *)
Definition join (p : path) (rel : list string) : path :=
  normalize (p ++ rel)%list.

Fixpoint to_string (p : path) : string :=
  match p with
  | [] => ""
  | s :: rest => "/" ++ s ++ to_string rest
  end.

(** The text of a path inside a template literal. *)
Definition show (p : path) : string :=
  match p with
  | [] => "/"
  | _ => to_string p
  end.

End Path.

(** ** Effects and events *)

Inductive stdio_option := StdioPipe | StdioInherit | StdioIgnore.

Record spawn_options := {
  cwd : Path.path;
  stdio : stdio_option;
  shell : bool
}.

(** The events of the child process that the script listens to.  The code
    of an ['exit'] event is [null] ([None]) when a signal ended the child. *)
Inductive child_event :=
| ChildError (message : string)
| ChildExit (code : option Z).

(** One entry of a run's trace: something the script did, or an event it
    was handed.  [ConsoleError] writes a line to standard error,
    [ConsoleLog] to standard output. *)
Inductive event :=
| ConsoleError (line : string)
| ConsoleLog (line : string)
| Spawn (file : string) (args : list string) (opts : spawn_options)
| Received (ev : child_event)
| ProcessExit (code : option Z).

Inductive state :=
| AwaitingArgument
| Delegating (componentName : string)
| Terminal (code : Z).

(** [process.exit(code)]: a [null] code leaves [process.exitCode] unset and
    the status defaults to 0. *)
Definition exit_status (code : option Z) : Z :=
  match code with
  | Some n => n
  | None => 0
  end.

Record run_result := {
  trace : list event;
  states : list state
}.

Definition final (r : run_result) : state := last (states r) AwaitingArgument.

(** What [spawn] hands to the shell when the [shell] option is set: the
    file and the arguments joined by single spaces, nothing quoted. *)
Definition shell_command (file : string) (args : list string) : string :=
  String.concat " " (file :: args).

(** ** The script *)

Section Installer.

(** [fileURLToPath(import.meta.url)]: where the script is installed. *)
Variable __filename : Path.path.

Definition __dirname : Path.path := Path.dirname __filename.

Definition projectRoot : Path.path := Path.join __dirname [".."].

Definition usage : list event * state :=
  ([ ConsoleError "❌ Error: Please specify a component name";
     ConsoleLog "Usage: npm run ui:add <component-name>";
     ConsoleLog "Example: npm run ui:add button";
     ProcessExit (Some 1%Z) ],
   Terminal (exit_status (Some 1%Z))).

Definition delegate (componentName : string) : list event * state :=
  ([ ConsoleLog ("🔧 Adding shadcn component: " ++ componentName);
     ConsoleLog ("📁 Working directory: " ++ Path.show projectRoot);
     Spawn "pnpm" ["dlx"; "shadcn@canary"; "add"; componentName]
           {| cwd := projectRoot; stdio := StdioInherit; shell := true |} ],
   Delegating componentName).

(** The top-level code.  [process.argv[2]] is [undefined] past the end of
    the array; the guard [!componentName] also catches the empty string. *)
Definition main (argv : list string) : list event * state :=
  let componentName := nth_error argv 2 in
  if Js.falsy componentName then usage
  else
    match componentName with
    | Some name => delegate name
    | None => usage
    end.

(** [child.on("error", ...)] *)
Definition on_error (message : string) : list event * state :=
  ([ ConsoleError (Js.format2 "❌ Error running command:" message);
     ProcessExit (Some 1%Z) ],
   Terminal (exit_status (Some 1%Z))).

(** [child.on("exit", ...)].  After the success branch nothing keeps the
    event loop alive (the child's streams are the parent's own), so the
    process ends with status 0. *)
Definition on_exit (componentName : string) (code : option Z)
  : list event * state :=
  match code with
  | Some 0%Z =>
      ([ ConsoleLog ("✅ Successfully added " ++ componentName ++ " component!") ],
       Terminal 0)
  | _ =>
      ([ ConsoleError ("❌ Command failed with exit code "
                       ++ Js.template_of_code code);
         ProcessExit code ],
       Terminal (exit_status code))
  end.

Definition listener (componentName : string) (ev : child_event)
  : list event * state :=
  match ev with
  | ChildError message => on_error message
  | ChildExit code => on_exit componentName code
  end.

(** Events reach the listeners only while the process waits for the
    child; once it has terminated the rest is never seen. *)
Fixpoint deliver (st : state) (evs : list child_event)
  : list event * list state :=
  match evs with
  | [] => ([], [])
  | ev :: rest =>
      match st with
      | Delegating name =>
          let (out, st') := listener name ev in
          let (tr, sts) := deliver st' rest in
          (Received ev :: out ++ tr, st' :: sts)
      | _ => ([], [])
      end
  end.

(** One invocation: the argument vector and the events the child will
    produce, in order. *)
Definition run (argv : list string) (evs : list child_event) : run_result :=
  let (out, st) := main argv in
  let (tr, sts) := deliver st evs in
  {| trace := (out ++ tr)%list; states := AwaitingArgument :: st :: sts |}.

End Installer.

(** ** Vocabulary of the properties *)

Definition is_spawn (e : event) : bool :=
  match e with Spawn _ _ _ => true | _ => false end.

Definition is_report (e : event) : bool :=
  match e with ConsoleError _ => true | _ => false end.

Definition count_spawns (tr : list event) : nat := List.length (filter is_spawn tr).

Definition count_reports (tr : list event) : nat := List.length (filter is_report tr).

(** A child event that is a failure of the delegation: it could not be
    started, or it ended with anything but status 0. *)
Definition is_failure (ev : child_event) : bool :=
  match ev with
  | ChildError _ => true
  | ChildExit (Some 0%Z) => false
  | ChildExit _ => true
  end.

(** Whether an invocation meets a failure: the argument is missing, or the
    first thing the child reports is a failure. *)
Definition failure_occurs (argv : list string) (evs : list child_event) : bool :=
  if Js.falsy (nth_error argv 2) then true
  else match evs with
       | [] => false
       | ev :: _ => is_failure ev
       end.

(** The state machine as the specification draws it. *)
Inductive spec_transition : state -> state -> Prop :=
| T_valid_arg X : spec_transition AwaitingArgument (Delegating X)
| T_missing_arg : spec_transition AwaitingArgument (Terminal 1)
| T_terminate X code : spec_transition (Delegating X) (Terminal code).

Inductive spec_path : list state -> Prop :=
| P_one st : spec_path [st]
| P_cons st st' rest :
    spec_transition st st' -> spec_path (st' :: rest) -> spec_path (st :: st' :: rest).

(** The installer launches the delegated command for [X]: the command's
    last argument is [X], it runs in the parent of the script's directory,
    and it shares the parent's standard streams. *)
Definition delegates_with (file : Path.path) (r : run_result) (X : string) : Prop :=
  exists f args opts,
    In (Spawn f args opts) (trace r) /\
    (exists front, args = (front ++ [X])%list) /\
    cwd opts = Path.dirname (Path.dirname file) /\
    stdio opts = StdioInherit.

(** Reading a decimal numeral: an optional minus sign and at least one
    digit, valued by Horner's rule.  This is what it means for a text to
    show an integer; it owes nothing to how the script prints one. *)
Definition digit_of (c : ascii) : option Z :=
  let n := Z.of_N (N_of_ascii c) in
  if ((48 <=? n) && (n <=? 57))%Z then Some (n - 48)%Z else None.

Fixpoint read_digits (acc : Z) (s : string) : option Z :=
  match s with
  | "" => Some acc
  | String c rest =>
      match digit_of c with
      | Some d => read_digits (10 * acc + d) rest
      | None => None
      end
  end.

Definition read_unsigned (s : string) : option Z :=
  match s with
  | "" => None
  | _ => read_digits 0 s
  end.

Definition read_decimal (s : string) : option Z :=
  match s with
  | String "-" rest => option_map Z.opp (read_unsigned rest)
  | _ => read_unsigned s
  end.

(** The first spawn request of a trace. *)
Fixpoint spawn_request (tr : list event)
  : option (string * list string * spawn_options) :=
  match tr with
  | [] => None
  | Spawn f a o :: _ => Some (f, a, o)
  | _ :: rest => spawn_request rest
  end.

(** ** The environment around the script *)

(** Two ways in which the delegated command may fail to start: the process
    that Node is asked to create cannot be created (the reason is the text
    of the error Node raises), or the command named in the request does not
    exist. *)
Inductive launch_failure :=
| ProcessNotStarted (reason : string)
| CommandNotFound.

(** What the script is told about such a failure.  With the [shell] option
    the process Node creates is the shell, and a command the shell cannot
    find makes the shell exit with status 127; only without the option is a
    missing command an ['error'] event of its own. *)
Definition report_launch_failure (f : string) (o : spawn_options)
           (lf : launch_failure) : child_event :=
  match lf with
  | ProcessNotStarted reason => ChildError reason
  | CommandNotFound =>
      if shell o then ChildExit (Some 127%Z)
      else ChildError ("spawn " ++ f ++ " ENOENT")
  end.

(** An invocation whose delegated command fails to start in the given way. *)
Definition run_launch_failure (file : Path.path) (argv : list string)
           (lf : launch_failure) : run_result :=
  match spawn_request (fst (main file argv)) with
  | Some (f, _, o) => run file argv [report_launch_failure f o lf]
  | None => run file argv []
  end.

(** Invocations one after another.  [world] is everything that outlives a
    process (the files of the project, the package cache); [tool] is the
    delegated command, which may read and change the world and decides what
    Node reports about the child.  The script opens no file and reads no
    variable of the environment: it meets the world only by handing it to
    the command it launches. *)
Section Sessions.

Variable world : Type.
Variable tool :
  world -> string -> list string -> spawn_options -> world * list child_event.
Variable file : Path.path.



End Sessions.

(** ** Paths *)

Module PathFacts.
Import Path.

Lemma normalize_from_app (q rel acc : list string) :
  normalized q ->
  normalize_from acc (q ++ rel)%list = normalize_from (rev q ++ acc)%list rel.
Proof.
  intros Hq. revert acc.
  induction Hq as [|s q Hs _ IH]; intros acc; [reflexivity|].
  unfold dot_segment in Hs.
  apply orb_false_iff in Hs as [Hs Hdd].
  cbn [app normalize_from]. rewrite Hs, Hdd.
  rewrite IH. cbn [rev]. now rewrite <- app_assoc.
Qed.

Lemma rev_tl_rev (q : list string) : rev (tl (rev q)) = removelast q.
Proof.
  induction q as [|s q IH] using rev_ind; [reflexivity|].
  rewrite rev_app_distr. cbn [rev app tl].
  now rewrite rev_involutive, removelast_last.
Qed.

Lemma normalized_removelast (p : path) :
  normalized p -> normalized (removelast p).
Proof.
  unfold normalized. rewrite !Forall_forall.
  intros H s Hs. apply H.
  destruct p as [|a p]; [destruct Hs|].
  rewrite (app_removelast_last a (l := a :: p)) by discriminate.
  apply in_or_app. now left.
Qed.

(** Joining [..] to a normalised directory yields its parent. *)
Lemma join_dotdot (q : path) :
  normalized q -> join q [".."] = dirname q.
Proof.
  intros Hq. unfold join, normalize, dirname.
  rewrite normalize_from_app by assumption.
  rewrite app_nil_r. cbn. apply rev_tl_rev.
Qed.

Lemma projectRoot_parent (file : path) :
  normalized file -> projectRoot file = dirname (dirname file).
Proof.
  intros H. unfold projectRoot, __dirname.
  apply join_dotdot, normalized_removelast, H.
Qed.

End PathFacts.

(** ** Strings *)

Lemma append_nil_r (s : string) : s ++ "" = s.
Proof. induction s as [|c s IH]; cbn; [reflexivity | now rewrite IH]. Qed.

Lemma contains_suffix (pre t : string) : Js.contains t (pre ++ t).
Proof. exists pre, "". now rewrite append_nil_r. Qed.

Lemma contains_middle (pre t post : string) : Js.contains t (pre ++ t ++ post).
Proof. now exists pre, post. Qed.

(** ** Decimal numerals *)

Lemma read_digits_acc (d : Decimal.uint) (acc : positive) :
  read_digits (Zpos acc) (NilEmpty.string_of_uint d)
  = Some (Zpos (Pos.of_uint_acc d acc)).
Proof.
  revert acc.
  induction d as [|d IH|d IH|d IH|d IH|d IH|d IH|d IH|d IH|d IH|d IH];
    intros acc; [reflexivity|..];
    cbn [NilEmpty.string_of_uint read_digits Pos.of_uint_acc];
    change (digit_of _) with (Some 0%Z) || change (digit_of _) with (Some 1%Z)
    || change (digit_of _) with (Some 2%Z) || change (digit_of _) with (Some 3%Z)
    || change (digit_of _) with (Some 4%Z) || change (digit_of _) with (Some 5%Z)
    || change (digit_of _) with (Some 6%Z) || change (digit_of _) with (Some 7%Z)
    || change (digit_of _) with (Some 8%Z) || change (digit_of _) with (Some 9%Z);
    rewrite <- IH; f_equal; lia.
Qed.

Lemma read_digits_uint (d : Decimal.uint) :
  read_digits 0 (NilEmpty.string_of_uint d) = Some (Z.of_N (Pos.of_uint d)).
Proof.
  induction d as [|d IH|d IH|d IH|d IH|d IH|d IH|d IH|d IH|d IH|d IH];
    [reflexivity | exact IH | ..];
    cbn [NilEmpty.string_of_uint read_digits Pos.of_uint Z.of_N];
    apply read_digits_acc.
Qed.

Lemma read_unsigned_pos (p : positive) :
  read_unsigned (NilZero.string_of_uint (Pos.to_uint p)) = Some (Zpos p).
Proof.
  pose proof (Unsigned.to_uint_nonnil p) as Hnn.
  pose proof (Unsigned.of_to p) as Hof.
  pose proof (read_digits_uint (Pos.to_uint p)) as Hr.
  rewrite Hof in Hr. cbn [Z.of_N] in Hr.
  destruct (Pos.to_uint p); [contradiction|..]; exact Hr.
Qed.

Lemma first_char_not_minus (p : positive) :
  exists c rest, NilZero.string_of_uint (Pos.to_uint p) = String c rest /\
                 Ascii.eqb c "-" = false.
Proof.
  pose proof (Unsigned.to_uint_nonnil p) as Hnn.
  destruct (Pos.to_uint p); [contradiction|..]; cbn; eauto.
Qed.

(** What the template literal prints for an integer reads back as that
    integer. *)
Lemma read_decimal_string_of_Z (n : Z) :
  read_decimal (Js.string_of_Z n) = Some n.
Proof.
  destruct n as [|p|p]; [reflexivity|..];
    unfold Js.string_of_Z; cbn [Z.to_int NilZero.string_of_int].
  - destruct (first_char_not_minus p) as (c & rest & E & Hc).
    pose proof (read_unsigned_pos p) as H. rewrite E in H |- *.
    unfold read_decimal.
    destruct c as [[] [] [] [] [] [] [] []]; try exact H; discriminate Hc.
  - unfold read_decimal. now rewrite read_unsigned_pos.
Qed.

Lemma falsy_nonempty (X : string) : X <> "" -> Js.falsy (Some X) = false.
Proof. intros H. cbn. now apply String.eqb_neq. Qed.

(** ** How a run unfolds *)

Section RunFacts.

Variable file : Path.path.

Lemma main_missing (argv : list string) :
  Js.falsy (nth_error argv 2) = true -> main file argv = usage.
Proof. intros H. unfold main. now rewrite H. Qed.

Lemma main_supplied (argv : list string) (X : string) :
  nth_error argv 2 = Some X -> X <> "" -> main file argv = delegate file X.
Proof.
  intros H HX. unfold main. rewrite H.
  now rewrite (falsy_nonempty X HX).
Qed.

Lemma main_cases (argv : list string) :
  (Js.falsy (nth_error argv 2) = true /\ main file argv = usage) \/
  (exists X, nth_error argv 2 = Some X /\ X <> "" /\
             Js.falsy (nth_error argv 2) = false /\
             main file argv = delegate file X).
Proof.
  destruct (Js.falsy (nth_error argv 2)) eqn:F.
  - left. split; [reflexivity | now apply main_missing].
  - right. destruct (nth_error argv 2) as [X|] eqn:E; [|discriminate F].
    exists X. cbn in F. apply String.eqb_neq in F.
    split; [reflexivity|]. split; [assumption|].
    split; [reflexivity | now apply main_supplied].
Qed.

Lemma deliver_terminal (code : Z) (evs : list child_event) :
  deliver (Terminal code) evs = ([], []).
Proof. now destruct evs. Qed.

Lemma listener_terminal (X : string) (ev : child_event) :
  exists code, snd (listener X ev) = Terminal code.
Proof.
  destruct ev as [m | [[|p|p]|]]; cbn; eauto.
Qed.

Lemma deliver_delegating (X : string) (ev : child_event) (rest : list child_event) :
  deliver (Delegating X) (ev :: rest) =
    (Received ev :: fst (listener X ev), [snd (listener X ev)]).
Proof.
  cbn [deliver].
  destruct (listener_terminal X ev) as [code Hc].
  destruct (listener X ev) as [out st'] eqn:L. cbn in Hc. subst st'.
  rewrite deliver_terminal. cbn. now rewrite app_nil_r.
Qed.

Lemma run_usage (argv : list string) (evs : list child_event) :
  Js.falsy (nth_error argv 2) = true ->
  run file argv evs =
    {| trace := fst usage; states := [AwaitingArgument; Terminal 1] |}.
Proof.
  intros H. unfold run. rewrite (main_missing argv H).
  unfold usage. rewrite deliver_terminal. reflexivity.
Qed.

Lemma run_waiting (argv : list string) (X : string) :
  nth_error argv 2 = Some X -> X <> "" ->
  run file argv [] =
    {| trace := fst (delegate file X);
       states := [AwaitingArgument; Delegating X] |}.
Proof.
  intros H HX. unfold run. rewrite (main_supplied argv X H HX).
  reflexivity.
Qed.

Lemma run_delegated (argv : list string) (X : string)
      (ev : child_event) (rest : list child_event) :
  nth_error argv 2 = Some X -> X <> "" ->
  run file argv (ev :: rest) =
    {| trace := (fst (delegate file X) ++ Received ev :: fst (listener X ev))%list;
       states := [AwaitingArgument; Delegating X; snd (listener X ev)] |}.
Proof.
  intros H HX. unfold run. rewrite (main_supplied argv X H HX).
  unfold delegate. rewrite deliver_delegating. reflexivity.
Qed.

(** An event shows up in the trace only when the command was launched
    for a non-empty argument and the event came first. *)
Lemma received_inv (argv : list string) (evs : list child_event)
      (X : string) (ev : child_event) :
  nth_error argv 2 = Some X ->
  In (Received ev) (trace (run file argv evs)) ->
  X <> "" /\ exists rest, evs = ev :: rest.
Proof.
  intros H Hin.
  destruct (main_cases argv) as [[F _] | (X' & E & HX & _ & _)].
  - rewrite (run_usage argv evs F) in Hin. cbn in Hin.
    repeat (destruct Hin as [Hin | Hin]; [discriminate Hin|]). destruct Hin.
  - assert (X' = X) by congruence. subst X'. split; [assumption|].
    destruct evs as [|ev' rest].
    + rewrite (run_waiting argv X E HX) in Hin. cbn in Hin.
      repeat (destruct Hin as [Hin | Hin]; [discriminate Hin|]). destruct Hin.
    + rewrite (run_delegated argv X ev' rest E HX) in Hin. cbn in Hin.
      destruct Hin as [Hin | [Hin | [Hin | Hin]]]; try discriminate Hin.
      destruct Hin as [Hin | Hin].
      * injection Hin as ->. now exists rest.
      * exfalso. destruct ev' as [m | [[|p|p]|]]; cbn in Hin;
          repeat (destruct Hin as [Hin | Hin]; [discriminate Hin|]);
          destruct Hin.
Qed.

End RunFacts.

Section ListenerFacts.

Lemma on_exit_zero (X : string) :
  on_exit X (Some 0%Z) =
    ([ ConsoleLog ("✅ Successfully added " ++ X ++ " component!") ], Terminal 0).
Proof. reflexivity. Qed.

Lemma on_exit_nonzero (X : string) (N : Z) :
  N <> 0%Z ->
  on_exit X (Some N) =
    ([ ConsoleError ("❌ Command failed with exit code " ++ Js.string_of_Z N);
       ProcessExit (Some N) ],
     Terminal N).
Proof. intros H. destruct N; [contradiction | reflexivity | reflexivity]. Qed.

Lemma on_exit_signal (X : string) :
  on_exit X None =
    ([ ConsoleError "❌ Command failed with exit code null"; ProcessExit None ],
     Terminal 0).
Proof. reflexivity. Qed.

Lemma listener_reports (X : string) (ev : child_event) :
  count_reports (fst (listener X ev)) = if is_failure ev then 1%nat else 0%nat.
Proof. destruct ev as [m | [[|p|p]|]]; reflexivity. Qed.

Lemma listener_no_spawn (X : string) (ev : child_event) :
  count_spawns (fst (listener X ev)) = 0%nat.
Proof. destruct ev as [m | [[|p|p]|]]; reflexivity. Qed.

End ListenerFacts.

Section ArgvFacts.

Variable file : Path.path.

(** The script reads nothing of [process.argv] but index 2. *)
Lemma main_reads_index_2 (argv1 argv2 : list string) :
  nth_error argv1 2 = nth_error argv2 2 -> main file argv1 = main file argv2.
Proof. intros H. unfold main. now rewrite H. Qed.

Lemma run_reads_index_2 (argv1 argv2 : list string) (evs : list child_event) :
  nth_error argv1 2 = nth_error argv2 2 ->
  run file argv1 evs = run file argv2 evs.
Proof. intros H. unfold run. now rewrite (main_reads_index_2 argv1 argv2 H). Qed.

End ArgvFacts.

Section RequestFacts.

Variable file : Path.path.



End RequestFacts.

(** ** Sample installation *)

Definition sample_script : Path.path :=
  ["home"; "dev"; "app"; "scripts"; "add-component.mjs"].

Definition sample_argv (X : string) : list string :=
  ["/usr/bin/node"; "/home/dev/app/scripts/add-component.mjs"; X].

Lemma sample_script_normalized : Path.normalized sample_script.
Proof. repeat constructor. Defined.

(** * The properties *)

(** C1, as stated, fails: an invocation whose one argument is the empty
    string launches nothing, so no delegated command carries that argument. *)
Lemma C1_empty_argument_counterexample :
  ~ delegates_with sample_script
      (run sample_script (sample_argv "") [ChildExit (Some 0%Z)]) "".
Proof.
  intros (f & args & opts & Hin & _).
  cbn in Hin.
  repeat (destruct Hin as [Hin | Hin]; [discriminate Hin|]).
  exact Hin.
Qed.

(** C1 (amended): for every invocation whose argument [X] is not the empty
    string, the installer requests [pnpm dlx shadcn@canary add X] with [X]
    as the last argument, with the parent of the script's directory as
    working directory and with the parent's standard streams inherited. *)
Theorem C1_delegation (file : Path.path) (argv : list string)
        (evs : list child_event) (X : string) :
  Path.normalized file ->
  nth_error argv 2 = Some X ->
  X <> "" ->
  delegates_with file (run file argv evs) X /\
  In (Spawn "pnpm" ["dlx"; "shadcn@canary"; "add"; X]
            {| cwd := Path.dirname (Path.dirname file);
               stdio := StdioInherit; shell := true |})
     (trace (run file argv evs)) /\
  count_spawns (trace (run file argv evs)) = 1%nat.
Proof.
  intros Hn H HX.
  assert (Hin : In (Spawn "pnpm" ["dlx"; "shadcn@canary"; "add"; X]
                      {| cwd := Path.dirname (Path.dirname file);
                         stdio := StdioInherit; shell := true |})
                   (trace (run file argv evs)) /\
                count_spawns (trace (run file argv evs)) = 1%nat).
  { rewrite <- (PathFacts.projectRoot_parent file Hn).
    destruct evs as [|ev rest].
    - rewrite (run_waiting file argv X H HX). cbn.
      split; [right; right; left|]; reflexivity.
    - rewrite (run_delegated file argv X ev rest H HX).
      cbn [trace delegate fst app].
      split; [right; right; left; reflexivity|].
      unfold count_spawns. cbn [filter is_spawn List.length].
      f_equal. apply (listener_no_spawn X ev). }
  split; [|exact Hin].
  exists "pnpm", ["dlx"; "shadcn@canary"; "add"; X],
    {| cwd := Path.dirname (Path.dirname file);
       stdio := StdioInherit; shell := true |}.
  split; [apply Hin|].
  split; [now exists ["dlx"; "shadcn@canary"; "add"] | split; reflexivity].
Qed.

Lemma C1_delegation_witness :
  Path.normalized sample_script /\
  nth_error (sample_argv "button") 2 = Some "button" /\
  "button" <> "" /\
  delegates_with sample_script (run sample_script (sample_argv "button") []) "button".
Proof.
  split; [exact sample_script_normalized|].
  split; [reflexivity|].
  split; [discriminate|].
  apply (C1_delegation sample_script (sample_argv "button") [] "button").
  - exact sample_script_normalized.
  - reflexivity.
  - discriminate.
Defined.

(** C2: an invocation without argument writes the usage error to standard
    error, the usage hint and the example to standard output, ends with
    status 1 and launches nothing. *)
Theorem C2_missing_argument (file : Path.path) (node script : string)
        (evs : list child_event) :
  trace (run file [node; script] evs) =
    [ ConsoleError "❌ Error: Please specify a component name";
      ConsoleLog "Usage: npm run ui:add <component-name>";
      ConsoleLog "Example: npm run ui:add button";
      ProcessExit (Some 1%Z) ] /\
  final (run file [node; script] evs) = Terminal 1 /\
  count_spawns (trace (run file [node; script] evs)) = 0%nat.
Proof.
  rewrite (run_usage file [node; script] evs eq_refl).
  repeat split.
Qed.

(** C3: when the delegated command exits with a code [N] other than 0, the
    installer writes a failure line to standard error that ends in the
    decimal numeral of [N], calls [process.exit(N)] and ends with status
    [N]. *)
Theorem C3_nonzero_exit (file : Path.path) (argv : list string)
        (evs : list child_event) (X : string) (N : Z) :
  nth_error argv 2 = Some X ->
  In (Received (ChildExit (Some N))) (trace (run file argv evs)) ->
  N <> 0%Z ->
  exists digits,
    read_decimal digits = Some N /\
    In (ConsoleError ("❌ Command failed with exit code " ++ digits))
       (trace (run file argv evs)) /\
    Js.contains digits ("❌ Command failed with exit code " ++ digits) /\
    In (ProcessExit (Some N)) (trace (run file argv evs)) /\
    final (run file argv evs) = Terminal N.
Proof.
  intros H Hin HN.
  destruct (received_inv file argv evs X _ H Hin) as [HX [rest ->]].
  rewrite (run_delegated file argv X _ rest H HX).
  cbn [listener]. rewrite (on_exit_nonzero X N HN).
  cbn [trace states fst snd final last].
  exists (Js.string_of_Z N).
  split; [apply read_decimal_string_of_Z|].
  split; [apply in_or_app; right; right; left; reflexivity|].
  split; [apply contains_suffix|].
  split; [apply in_or_app; right; right; right; left; reflexivity|].
  reflexivity.
Qed.

Lemma C3_nonzero_exit_witness :
  nth_error (sample_argv "bogus-widget") 2 = Some "bogus-widget" /\
  In (Received (ChildExit (Some 2%Z)))
     (trace (run sample_script (sample_argv "bogus-widget") [ChildExit (Some 2%Z)])) /\
  2%Z <> 0%Z /\
  (exists digits,
     read_decimal digits = Some 2%Z /\
     In (ConsoleError ("❌ Command failed with exit code " ++ digits))
        (trace (run sample_script (sample_argv "bogus-widget")
                    [ChildExit (Some 2%Z)])) /\
     Js.contains digits ("❌ Command failed with exit code " ++ digits) /\
     In (ProcessExit (Some 2%Z))
        (trace (run sample_script (sample_argv "bogus-widget")
                    [ChildExit (Some 2%Z)])) /\
     final (run sample_script (sample_argv "bogus-widget") [ChildExit (Some 2%Z)])
       = Terminal 2) /\
  read_decimal "2" = Some 2%Z /\
  In (ConsoleError "❌ Command failed with exit code 2")
     (trace (run sample_script (sample_argv "bogus-widget") [ChildExit (Some 2%Z)])).
Proof.
  split; [reflexivity|].
  split; [cbn; auto 10|].
  split; [discriminate|].
  split; [|split; [reflexivity | cbn; auto 10]].
  apply (C3_nonzero_exit sample_script (sample_argv "bogus-widget")
                         [ChildExit (Some 2%Z)] "bogus-widget" 2%Z).
  - reflexivity.
  - cbn; auto 10.
  - discriminate.
Defined.

(** C4: when the delegated command exits with code 0, the installer prints
    a success line that contains [X] and the process ends with status 0. *)
Theorem C4_zero_exit (file : Path.path) (argv : list string)
        (evs : list child_event) (X : string) :
  nth_error argv 2 = Some X ->
  In (Received (ChildExit (Some 0%Z))) (trace (run file argv evs)) ->
  In (ConsoleLog ("✅ Successfully added " ++ X ++ " component!"))
     (trace (run file argv evs)) /\
  Js.contains X ("✅ Successfully added " ++ X ++ " component!") /\
  final (run file argv evs) = Terminal 0.
Proof.
  intros H Hin.
  destruct (received_inv file argv evs X _ H Hin) as [HX [rest ->]].
  rewrite (run_delegated file argv X _ rest H HX).
  cbn [listener]. rewrite (on_exit_zero X).
  cbn [trace states fst snd final last].
  split; [apply in_or_app; right; right; left; reflexivity|].
  split; [apply contains_middle | reflexivity].
Qed.

Lemma C4_zero_exit_witness :
  nth_error (sample_argv "button") 2 = Some "button" /\
  In (Received (ChildExit (Some 0%Z)))
     (trace (run sample_script (sample_argv "button") [ChildExit (Some 0%Z)])) /\
  In (ConsoleLog "✅ Successfully added button component!")
     (trace (run sample_script (sample_argv "button") [ChildExit (Some 0%Z)])).
Proof.
  split; [reflexivity|].
  split; [cbn; auto 10|].
  apply (C4_zero_exit sample_script (sample_argv "button")
                      [ChildExit (Some 0%Z)] "button").
  - reflexivity.
  - cbn; auto 10.
Defined.

(** C5, as stated, fails for the failure its sources name: the command is
    run through the shell, so a [pnpm] that is not installed is reported as
    exit code 127; the installer prints the exit-code line and ends with
    status 127, not 1. *)
Lemma C5_command_not_found_counterexample :
  run_launch_failure sample_script (sample_argv "button") CommandNotFound =
    {| trace :=
         [ ConsoleLog "🔧 Adding shadcn component: button";
           ConsoleLog "📁 Working directory: /home/dev/app";
           Spawn "pnpm" ["dlx"; "shadcn@canary"; "add"; "button"]
                 {| cwd := ["home"; "dev"; "app"];
                    stdio := StdioInherit; shell := true |};
           Received (ChildExit (Some 127%Z));
           ConsoleError "❌ Command failed with exit code 127";
           ProcessExit (Some 127%Z) ];
       states := [AwaitingArgument; Delegating "button"; Terminal 127] |} /\
  final (run_launch_failure sample_script (sample_argv "button") CommandNotFound)
    <> Terminal 1.
Proof. split; [reflexivity | discriminate]. Qed.

(** C5 (amended): when Node cannot create the child process and emits the
    child's ['error'] event, the installer writes an error line that
    includes the reason and ends with status 1. *)
Theorem C5_launch_failure (file : Path.path) (argv : list string)
        (evs : list child_event) (X reason : string) :
  nth_error argv 2 = Some X ->
  In (Received (ChildError reason)) (trace (run file argv evs)) ->
  In (ConsoleError ("❌ Error running command: " ++ reason))
     (trace (run file argv evs)) /\
  Js.contains reason ("❌ Error running command: " ++ reason) /\
  In (ProcessExit (Some 1%Z)) (trace (run file argv evs)) /\
  final (run file argv evs) = Terminal 1.
Proof.
  intros H Hin.
  destruct (received_inv file argv evs X _ H Hin) as [HX [rest ->]].
  rewrite (run_delegated file argv X _ rest H HX).
  cbn [listener on_error trace states fst snd final last].
  split; [apply in_or_app; right; right; left; reflexivity|].
  split; [apply contains_suffix|].
  split; [apply in_or_app; right; right; right; left; reflexivity|].
  reflexivity.
Qed.

Lemma C5_launch_failure_witness :
  nth_error (sample_argv "button") 2 = Some "button" /\
  In (Received (ChildError "spawn /bin/sh ENOENT"))
     (trace (run sample_script (sample_argv "button")
                 [ChildError "spawn /bin/sh ENOENT"])) /\
  final (run sample_script (sample_argv "button")
             [ChildError "spawn /bin/sh ENOENT"]) = Terminal 1.
Proof.
  split; [reflexivity|].
  split; [cbn; auto 10|].
  apply (C5_launch_failure sample_script (sample_argv "button")
                           [ChildError "spawn /bin/sh ENOENT"] "button"
                           "spawn /bin/sh ENOENT").
  - reflexivity.
  - cbn; auto 10.
Defined.

(** C6 on the code: a child ended by a signal hands [null] to the ['exit']
    listener; the failure branch prints the word null and calls
    [process.exit(null)], so the installer ends with status 0, not 1. *)
Theorem C6_signal_exit_status :
  run sample_script (sample_argv "button") [ChildExit None] =
    {| trace :=
         [ ConsoleLog "🔧 Adding shadcn component: button";
           ConsoleLog "📁 Working directory: /home/dev/app";
           Spawn "pnpm" ["dlx"; "shadcn@canary"; "add"; "button"]
                 {| cwd := ["home"; "dev"; "app"];
                    stdio := StdioInherit; shell := true |};
           Received (ChildExit None);
           ConsoleError "❌ Command failed with exit code null";
           ProcessExit None ];
       states := [AwaitingArgument; Delegating "button"; Terminal 0] |}.
Proof. reflexivity. Qed.

(** C7: every invocation launches at most one subprocess; the states it
    passes through follow the specification's machine from
    [AwaitingArgument] (so nothing is re-entered or retried, and at most two
    transitions happen); a failure is reported by exactly one error line, a
    run without failure by none, and a failure ends in a terminal state. *)
Theorem C7_state_machine (file : Path.path) (argv : list string)
        (evs : list child_event) :
  (count_spawns (trace (run file argv evs)) <= 1)%nat /\
  hd_error (states (run file argv evs)) = Some AwaitingArgument /\
  spec_path (states (run file argv evs)) /\
  (List.length (states (run file argv evs)) <= 3)%nat /\
  count_reports (trace (run file argv evs)) =
    (if failure_occurs argv evs then 1%nat else 0%nat) /\
  (failure_occurs argv evs = true ->
   exists code, final (run file argv evs) = Terminal code).
Proof.
  unfold failure_occurs.
  destruct (main_cases file argv) as [[F _] | (X & E & HX & F & _)]; rewrite F.
  - rewrite (run_usage file argv evs F). cbn.
    split; [lia|]. split; [reflexivity|].
    split; [apply P_cons; [apply T_missing_arg | apply P_one]|].
    split; [lia|]. split; [reflexivity|].
    intros _. now exists 1%Z.
  - destruct evs as [|ev rest].
    + rewrite (run_waiting file argv X E HX). cbn.
      split; [lia|]. split; [reflexivity|].
      split; [apply P_cons; [apply T_valid_arg | apply P_one]|].
      split; [lia|]. split; [reflexivity|].
      discriminate.
    + rewrite (run_delegated file argv X ev rest E HX).
      destruct (listener_terminal X ev) as [code Hc].
      cbn [trace states delegate fst]. rewrite Hc.
      unfold count_spawns, count_reports.
      cbn [app filter is_spawn is_report List.length hd_error final last states].
      fold (count_spawns (fst (listener X ev))).
      fold (count_reports (fst (listener X ev))).
      rewrite listener_no_spawn, listener_reports.
      split; [lia|]. split; [reflexivity|].
      split; [apply P_cons; [apply T_valid_arg|];
              apply P_cons; [apply T_terminate | apply P_one]|].
      split; [lia|]. split; [reflexivity|].
      intros _. now exists code.
Qed.



(** C9: an empty first argument is handled exactly as a missing one: the
    usage lines are printed, the status is 1 and nothing is launched. *)
Theorem C9_empty_argument (file : Path.path) (node script : string)
        (rest : list string) (evs : list child_event) :
  run file (node :: script :: "" :: rest) evs = run file [node; script] evs /\
  trace (run file (node :: script :: "" :: rest) evs) =
    [ ConsoleError "❌ Error: Please specify a component name";
      ConsoleLog "Usage: npm run ui:add <component-name>";
      ConsoleLog "Example: npm run ui:add button";
      ProcessExit (Some 1%Z) ] /\
  final (run file (node :: script :: "" :: rest) evs) = Terminal 1 /\
  count_spawns (trace (run file (node :: script :: "" :: rest) evs)) = 0%nat.
Proof.
  rewrite (run_usage file (node :: script :: "" :: rest) evs eq_refl).
  rewrite (run_usage file [node; script] evs eq_refl).
  repeat split.
Qed.

(** C10: arguments after the first positional one are ignored: invocations
    that differ only there produce the same spawn request, the same printed
    lines and the same final status. *)
Theorem C10_extra_arguments_ignored (file : Path.path) (node script X : string)
        (rest1 rest2 : list string) (evs : list child_event) :
  run file (node :: script :: X :: rest1) evs =
  run file (node :: script :: X :: rest2) evs.
Proof.
  apply run_reads_index_2. reflexivity.
Qed.


(** * Further properties of the script *)

Section TraceShape.

Variable file : Path.path.

(** The three shapes a run can take. *)
Lemma run_cases (argv : list string) (evs : list child_event) :
  (Js.falsy (nth_error argv 2) = true /\
   run file argv evs =
     {| trace := fst usage; states := [AwaitingArgument; Terminal 1] |}) \/
  (exists X, nth_error argv 2 = Some X /\ X <> "" /\
     ((evs = [] /\
       run file argv evs =
         {| trace := fst (delegate file X);
            states := [AwaitingArgument; Delegating X] |}) \/
      (exists ev rest, evs = ev :: rest /\
       run file argv evs =
         {| trace := (fst (delegate file X)
                      ++ Received ev :: fst (listener X ev))%list;
            states := [AwaitingArgument; Delegating X;
                       snd (listener X ev)] |}))).
Proof.
  destruct (main_cases file argv) as [[F _] | (X & E & HX & _ & _)].
  - left. split; [assumption | now apply run_usage].
  - right. exists X. split; [assumption|]. split; [assumption|].
    destruct evs as [|ev rest].
    + left. split; [reflexivity | now apply run_waiting].
    + right. exists ev, rest. split; [reflexivity | now apply run_delegated].
Qed.

Lemma listener_never_spawns (X : string) (ev : child_event)
      (f : string) (a : list string) (o : spawn_options) :
  ~ In (Spawn f a o) (fst (listener X ev)).
Proof.
  destruct ev as [m | [[|p|p]|]]; cbn; intros H;
    repeat (destruct H as [H | H]; [discriminate H|]); exact H.
Qed.

(** A spawn entry of a trace is the third entry, behind the two progress
    lines. *)
Lemma spawn_position (argv : list string) (evs : list child_event)
      (f : string) (a : list string) (o : spawn_options) :
  In (Spawn f a o) (trace (run file argv evs)) ->
  exists X rest,
    nth_error argv 2 = Some X /\ X <> "" /\
    Spawn f a o =
      Spawn "pnpm" ["dlx"; "shadcn@canary"; "add"; X]
            {| cwd := projectRoot file; stdio := StdioInherit; shell := true |} /\
    trace (run file argv evs) =
      ConsoleLog ("🔧 Adding shadcn component: " ++ X)
      :: ConsoleLog ("📁 Working directory: " ++ Path.show (projectRoot file))
      :: Spawn f a o :: rest.
Proof.
  intros Hin.
  destruct (run_cases argv evs)
    as [[_ R] | (X & E & HX & [[_ R] | (ev & rest & _ & R)])];
    rewrite R in Hin |- *; cbn [trace usage delegate fst] in Hin |- *.
  - exfalso. cbn in Hin.
    repeat (destruct Hin as [Hin | Hin]; [discriminate Hin|]). exact Hin.
  - exists X, []. cbn in Hin.
    destruct Hin as [Hin | [Hin | [Hin | Hin]]];
      try discriminate Hin; [|destruct Hin].
    rewrite <- Hin. now repeat split.
  - exists X, (Received ev :: fst (listener X ev)). cbn [app In] in Hin.
    destruct Hin as [Hin | [Hin | [Hin | [Hin | Hin]]]];
      try discriminate Hin;
      [|exfalso; exact (listener_never_spawns X ev f a o Hin)].
    rewrite <- Hin. now repeat split.
Qed.

End TraceShape.

Lemma removelast_prefix (l : list string) :
  exists below, l = (removelast l ++ below)%list /\
                (List.length below <= 1)%nat /\
                (1 <= List.length l -> List.length below = 1)%nat.
Proof.
  destruct l as [|a l].
  - exists []. cbn. repeat split; lia.
  - exists [last (a :: l) a]. split; [|cbn; split; lia].
    now apply app_removelast_last.
Qed.

Lemma removelast_length (l : list string) :
  List.length (removelast l) = (List.length l - 1)%nat.
Proof.
  induction l as [|a l IH]; [reflexivity|].
  destruct l as [|b l]; [reflexivity|].
  cbn [removelast List.length] in *. rewrite IH. lia.
Qed.

(** X3: before it launches the command the installer announces, on standard
    output, the component and then the working directory, and the directory
    it announces is the one the command is started in. *)
Theorem X3_announces_before_launch (file : Path.path) (argv : list string)
        (evs : list child_event) (f : string) (a : list string)
        (o : spawn_options) :
  In (Spawn f a o) (trace (run file argv evs)) ->
  exists X rest,
    nth_error argv 2 = Some X /\
    trace (run file argv evs) =
      ConsoleLog ("🔧 Adding shadcn component: " ++ X)
      :: ConsoleLog ("📁 Working directory: " ++ Path.show (cwd o))
      :: Spawn f a o :: rest.
Proof.
  intros Hin.
  destruct (spawn_position file argv evs f a o Hin) as (X & rest & E & _ & S & T).
  exists X, rest. split; [exact E|].
  injection S as _ _ ->. exact T.
Qed.

Lemma X3_announces_before_launch_witness :
  In (Spawn "pnpm" ["dlx"; "shadcn@canary"; "add"; "card"]
            {| cwd := ["home"; "dev"; "app"]; stdio := StdioInherit; shell := true |})
     (trace (run sample_script (sample_argv "card") [])) /\
  exists X rest,
    nth_error (sample_argv "card") 2 = Some X /\
    trace (run sample_script (sample_argv "card") []) =
      ConsoleLog ("🔧 Adding shadcn component: " ++ X)
      :: ConsoleLog ("📁 Working directory: " ++ "/home/dev/app")
      :: Spawn "pnpm" ["dlx"; "shadcn@canary"; "add"; "card"]
               {| cwd := ["home"; "dev"; "app"]; stdio := StdioInherit;
                  shell := true |}
      :: rest.
Proof.
  split; [cbn; auto 10|].
  apply (X3_announces_before_launch sample_script (sample_argv "card") []
           "pnpm" ["dlx"; "shadcn@canary"; "add"; "card"]
           {| cwd := ["home"; "dev"; "app"]; stdio := StdioInherit; shell := true |}).
  cbn; auto 10.
Defined.

(** X4: the working directory is an ancestor of the script: the script's
    path is the project root followed by at most two segments, by exactly
    two when the path is that deep (higher up the join stops at the file
    system root), and the project root has no empty, [.] or [..] segment. *)
Theorem X4_project_root_is_ancestor (file : Path.path) :
  Path.normalized file ->
  Path.normalized (projectRoot file) /\
  exists below,
    file = (projectRoot file ++ below)%list /\
    (List.length below <= 2)%nat /\
    (2 <= List.length file -> List.length below = 2)%nat.
Proof.
  intros Hn. rewrite (PathFacts.projectRoot_parent file Hn).
  unfold Path.dirname. split.
  - now do 2 apply PathFacts.normalized_removelast.
  - destruct (removelast_prefix file) as (b1 & E1 & L1 & M1).
    destruct (removelast_prefix (removelast file)) as (b2 & E2 & L2 & M2).
    rewrite removelast_length in M2.
    exists (b2 ++ b1)%list. rewrite app_assoc, <- E2, <- E1, length_app.
    split; [reflexivity|]. split; lia.
Qed.

Lemma X4_project_root_is_ancestor_witness :
  Path.normalized sample_script /\
  Path.normalized (projectRoot sample_script) /\
  exists below,
    sample_script = (projectRoot sample_script ++ below)%list /\
    (List.length below <= 2)%nat /\
    (2 <= List.length sample_script -> List.length below = 2)%nat.
Proof.
  split; [exact sample_script_normalized|].
  apply (X4_project_root_is_ancestor sample_script).
  exact sample_script_normalized.
Defined.

(** X5: once the command is launched the installer ends exactly when the
    child reports something: with no event it keeps waiting and never calls
    [process.exit] (there is no timeout), and the first event of either kind
    ends it. *)
Theorem X5_ends_exactly_on_child_event (file : Path.path) (argv : list string)
        (evs : list child_event) (X : string) :
  nth_error argv 2 = Some X ->
  X <> "" ->
  (evs = [] ->
   final (run file argv evs) = Delegating X /\
   forall c, ~ In (ProcessExit c) (trace (run file argv evs))) /\
  (evs <> [] -> exists code, final (run file argv evs) = Terminal code).
Proof.
  intros E HX. split.
  - intros ->. rewrite (run_waiting file argv X E HX). cbn.
    split; [reflexivity|].
    intros c H. repeat (destruct H as [H | H]; [discriminate H|]). exact H.
  - intros Hne. destruct evs as [|ev rest]; [contradiction|].
    rewrite (run_delegated file argv X ev rest E HX).
    destruct (listener_terminal X ev) as [code Hc].
    exists code. cbn [final states last]. exact Hc.
Qed.

Lemma X5_ends_exactly_on_child_event_witness :
  nth_error (sample_argv "card") 2 = Some "card" /\
  "card" <> "" /\
  final (run sample_script (sample_argv "card") []) = Delegating "card".
Proof.
  split; [reflexivity|].
  split; [discriminate|].
  apply (X5_ends_exactly_on_child_event sample_script (sample_argv "card") [] "card");
    [reflexivity | discriminate | reflexivity].
Defined.

(** X6: status 0 is never the result of a usage error, of a launch failure
    or of a non-zero exit code: a run that ends with status 0 had a
    non-empty argument and its child's first report was an exit with code 0
    or with no code at all. *)
Theorem X6_status_zero_origin (file : Path.path) (argv : list string)
        (evs : list child_event) :
  final (run file argv evs) = Terminal 0 ->
  exists X rest,
    nth_error argv 2 = Some X /\ X <> "" /\
    (evs = ChildExit (Some 0%Z) :: rest \/ evs = ChildExit None :: rest).
Proof.
  intros Hf.
  destruct (run_cases file argv evs)
    as [[_ R] | (X & E & HX & [[_ R] | (ev & rest & -> & R)])];
    rewrite R in Hf; cbn [final states last] in Hf; try discriminate Hf.
  exists X, rest. split; [exact E|]. split; [exact HX|].
  destruct ev as [m | [N|]]; cbn [listener] in Hf.
  - discriminate Hf.
  - destruct (Z.eq_dec N 0) as [-> | HN]; [now left|].
    rewrite (on_exit_nonzero X N HN) in Hf. cbn in Hf.
    injection Hf as ->. contradiction.
  - now right.
Qed.

Lemma X6_status_zero_origin_witness :
  final (run sample_script (sample_argv "card") [ChildExit (Some 0%Z)]) = Terminal 0 /\
  exists X rest,
    nth_error (sample_argv "card") 2 = Some X /\ X <> "" /\
    ([ChildExit (Some 0%Z)] = ChildExit (Some 0%Z) :: rest \/
     [ChildExit (Some 0%Z)] = ChildExit None :: rest).
Proof.
  split; [reflexivity|].
  apply (X6_status_zero_origin sample_script (sample_argv "card")
           [ChildExit (Some 0%Z)]).
  reflexivity.
Defined.

(** X7: the component name reaches the shell as typed: for every spawn
    entry the shell option is set and the command line is the fixed text
    [pnpm dlx shadcn@canary add ] followed by [process.argv[2]], unquoted. *)
Theorem X7_shell_command_line (file : Path.path) (argv : list string)
        (evs : list child_event) (f : string) (a : list string)
        (o : spawn_options) :
  In (Spawn f a o) (trace (run file argv evs)) ->
  shell o = true /\
  exists X,
    nth_error argv 2 = Some X /\
    shell_command f a = "pnpm dlx shadcn@canary add " ++ X.
Proof.
  intros Hin.
  destruct (spawn_position file argv evs f a o Hin) as (X & rest & E & _ & S & _).
  injection S as -> -> ->.
  split; [reflexivity|]. exists X. split; [exact E | reflexivity].
Qed.

Lemma X7_shell_command_line_witness :
  In (Spawn "pnpm" ["dlx"; "shadcn@canary"; "add"; "card --overwrite"]
            {| cwd := ["home"; "dev"; "app"]; stdio := StdioInherit; shell := true |})
     (trace (run sample_script (sample_argv "card --overwrite") [])) /\
  true = true /\
  exists X,
    nth_error (sample_argv "card --overwrite") 2 = Some X /\
    shell_command "pnpm" ["dlx"; "shadcn@canary"; "add"; "card --overwrite"]
      = "pnpm dlx shadcn@canary add " ++ X.
Proof.
  split; [cbn; auto 10|].
  apply (X7_shell_command_line sample_script
           (sample_argv "card --overwrite") []
           "pnpm" ["dlx"; "shadcn@canary"; "add"; "card --overwrite"]
           {| cwd := ["home"; "dev"; "app"]; stdio := StdioInherit;
              shell := true |}).
  cbn; auto 10.
Defined.


